(** * pysynscan: the motor command layer of [synscanMotors.py]

    A shallow embedding of the class [synscanMotors] and the properties its
    specification states about it.

    - Python integers are unbounded: they are [Z].
    - Python strings are sequences of characters; the model takes the
      characters with code points below 256, i.e. Rocq's [string].  On that
      range [int(c, 16)] accepts exactly [0-9], [a-f] and [A-F].
    - A Python dictionary built and read by key is a [gmap]; the literal
      [parameterDict], whose iteration order fixes the order of the transport
      calls, is an association list.
    - Exceptions are values of [exn]; a computation that can raise returns a
      [result].  Methods that talk to the controller run in the monad [M],
      which threads the state of the transport and of the instance.
    - [send_cmd] belongs to the parent class [synscanComm], which lives in
      another module: it is a parameter of the development.
    - Python's true division [/] yields a binary64 float.  The unit
      conversions are modelled over the rationals [Qc]: the arithmetic is
      exact, a division by zero raises [ZeroDivisionError] as it does in
      Python for integers and floats alike, and rounding, overflow and NaN
      are outside the model.
    - Logging has no part in the results and is left out, as are the
      constructor, the retry loop [init] and the interactive [test_goto]. *)

From Stdlib Require Import ZArith QArith Qcanon Ascii String Lia.
From stdpp Require Import base gmap strings.

Local Open Scope string_scope.
Local Open Scope Z_scope.

#[local] Set Warnings "-clear-no-such-hyp".

(** ** Exceptions and results *)

Inductive exn : Type :=
| NameError (msg : string)
| TypeError
| ValueError
| IndexError
| KeyError
| AttributeError
| ZeroDivisionError.

Inductive result (A : Type) : Type :=
| Ok (a : A)
| Raise (e : exn).

Arguments Ok {A} a.
Arguments Raise {A} e.

Definition rbind {A B} (r : result A) (k : A → result B) : result B :=
  match r with
  | Ok a => k a
  | Raise e => Raise e
  end.

Notation "'try!' x ← r ; k" := (rbind r (λ x, k))
  (at level 10, x name, r at level 100, k at level 200,
   format "'try!'  x  ←  r ;  '/' k").

(** ** Python values that cross the interface

    The transport answers with an integer or with a string; a decoded status
    is a dictionary from flag names to booleans. *)

Inductive pyval : Type :=
| VInt (z : Z)
| VStr (s : string)
| VDict (d : gmap string bool).

(** ** decode_status *)

Module Status.

Abbreviation status := (gmap string bool).

(** [int(c, 16)] for a one-character string [c]. *)
Definition int16 (c : ascii) : result Z :=
  let n := Z.of_N (N_of_ascii c) in
  if (48 <=? n) && (n <=? 57) then Ok (n - 48)
  else if (97 <=? n) && (n <=? 102) then Ok (n - 87)
  else if (65 <=? n) && (n <=? 70) then Ok (n - 55)
  else Raise ValueError.

Definition is_hex (c : ascii) : bool :=
  match int16 c with Ok _ => true | Raise _ => false end.

(** [hexstring[i]] *)
Definition index (hexstring : string) (i : nat) : result ascii :=
  match String.get i hexstring with
  | Some c => Ok c
  | None => Raise IndexError
  end.

(** [bool(n)] and [not n] on integers. *)
Definition py_bool (n : Z) : bool := negb (n =? 0).
Definition py_not (n : Z) : bool := n =? 0.

(** The body of [decode_status] once [A], [B] and [C] are known. *)
Definition decode_digits (A B C : Z) : status :=
  let status : status := ∅ in
  let status := <["Tracking" := py_bool (Z.land A 0x01)]> status in
  let status := <["CCW" := py_bool (Z.shiftr (Z.land A 0x02) 1)]> status in
  let status := <["FastSpeed" := py_bool (Z.shiftr (Z.land A 0x04) 2)]> status in
  let status := <["Stopped" := py_not (Z.land B 0x01)]> status in
  let status := <["Blocked" := py_bool (Z.shiftr (Z.land B 0x02) 1)]> status in
  let status := <["InitDone" := py_not (Z.land C 0x01)]> status in
  let status := <["LevelSwitchOn" := py_bool (Z.shiftr (Z.land B 0x02) 1)]> status in
  status.

Definition decode_status (hexstring : string) : result status :=
  try! c0 ← index hexstring 0;
  try! A ← int16 c0;
  try! c1 ← index hexstring 1;
  try! B ← int16 c1;
  try! c2 ← index hexstring 2;
  try! C ← int16 c2;
  Ok (decode_digits A B C).

(** The seven keys of a decoded status. *)
Definition flags : gset string :=
  {[ "Tracking"; "CCW"; "FastSpeed"; "Stopped"; "Blocked"; "InitDone";
     "LevelSwitchOn" ]}.

(** The characters [decode_status] looks at: the first three, or all of them
    when the string is shorter. *)
Definition prefix3 (s : string) : string := String.substring 0 3 s.

Fixpoint all_hex (s : string) : bool :=
  match s with
  | EmptyString => true
  | String c s' => is_hex c && all_hex s'
  end.

(** Malformed in the words of the specification: a non-hex character among
    the first three positions, or a length that is not exactly 3. *)
Definition malformed (s : string) : bool :=
  negb (all_hex (prefix3 s)) || negb (String.length s =? 3)%nat.

(** Too short, or a non-hex character among the first three positions. *)
Definition rejected (s : string) : bool :=
  negb (all_hex (prefix3 s)) || (String.length s <? 3)%nat.

End Status.

(** ** The class [synscanMotors] *)

(** [params], the dictionary [get_values] builds: axis, then parameter name. *)
Abbreviation pdict := (gmap Z (gmap string pyval)).

Section Motors.

(** The transport and its state (socket, controller): [send_cmd] of
    [synscanComm], called as [send_cmd(cmd, axis, data=None, ndigits=...)].
    The two optional arguments are [None] when the caller leaves them out.
    Its communication error is Python's [NameError]: that is the exception
    [get_values], [get_parameters] and [init] handle. *)
Variable World : Type.
Variable send_cmd :
  string → Z → option Z → option Z → World → result pyval * World.

(** The instance: the transport it owns and the attributes [self.params]
    and [self.CPR], unset until they are first assigned. *)
Record instance : Type := Instance {
  transport : World;
  self_params : option pdict;
  self_CPR : option pdict
}.

Definition M (A : Type) : Type := instance → result A * instance.

Definition ret {A} (a : A) : M A := λ self, (Ok a, self).

Definition raise {A} (e : exn) : M A := λ self, (Raise e, self).

Definition lift {A} (r : result A) : M A := λ self, (r, self).

Definition bind {A B} (m : M A) (k : A → M B) : M B :=
  λ self,
    match m self with
    | (Ok a, self') => k a self'
    | (Raise e, self') => (Raise e, self')
    end.

(** [try: x = m  except NameError as error: handler], then [k x].  The
    handler leaves the method (it returns or raises); any other exception
    passes through. *)
Definition try_except {A B} (m : M A) (handler : string → M B)
    (k : A → M B) : M B :=
  λ self,
    match m self with
    | (Ok a, self') => k a self'
    | (Raise (NameError error), self') => handler error self'
    | (Raise e, self') => (Raise e, self')
    end.

Notation "'do!' x ← m ; k" := (bind m (λ x, k))
  (at level 10, x name, m at level 100, k at level 200,
   format "'do!'  x  ←  m ;  '/' k").

(** [self.send_cmd(cmd, axis, data, ndigits)] *)
Definition call (cmd : string) (axis : Z) (data ndigits : option Z)
  : M pyval :=
  λ self,
    let '(r, w) := send_cmd cmd axis data ndigits (transport self) in
    (r, Instance w (self_params self) (self_CPR self)).

(** *** Dictionary accesses *)

(** [d[k]] *)
Definition getitem `{Countable K} {V} (d : gmap K V) (k : K) : result V :=
  match d !! k with
  | Some v => Ok v
  | None => Raise KeyError
  end.

(** [params[axis][parameter] = v] *)
Definition setitem2 (params : pdict) (axis : Z) (parameter : string)
    (v : pyval) : result pdict :=
  try! d ← getitem params axis;
  Ok (<[axis := <[parameter := v]> d]> params).

(** [self.params[axis][name]] *)
Definition self_param (axis : Z) (name : string) : M pyval :=
  λ self,
    match self_params self with
    | None => (Raise AttributeError, self)
    | Some p =>
        (try! d ← getitem p axis; getitem d name, self)
    end.

(** A value used as a number: the cached parameters are integers. *)
Definition as_int (v : pyval) : result Z :=
  match v with
  | VInt z => Ok z
  | _ => Raise TypeError
  end.

(** *** Unit conversions *)

Definition Qc_of_Z (z : Z) : Qc := Q2Qc (inject_Z z).

(** [a / b] *)
Definition truediv (a b : Qc) : result Qc :=
  if decide (b = Q2Qc 0) then Raise ZeroDivisionError else Ok (a / b)%Qc.

Definition degrees2counts (axis : Z) (degrees : Qc) : M Qc :=
  do! v ← self_param axis "countsPerRevolution";
  do! CPR ← lift (as_int v);
  do! value ← lift (truediv (degrees * Qc_of_Z CPR)%Qc (Qc_of_Z 360));
  ret value.

Definition counts2degrees (axis : Z) (counts : Qc) : M Qc :=
  do! v ← self_param axis "countsPerRevolution";
  do! CPR ← lift (as_int v);
  do! value ← lift (truediv (counts * Qc_of_Z 360)%Qc (Qc_of_Z CPR));
  ret value.

Definition T1preset (axis : Z) (degreesPerSecond : Qc) : M Qc :=
  do! countsPerSecond ← degrees2counts axis degreesPerSecond;
  do! v ← self_param axis "TimerInterruptFreq";
  do! TMR_Freq ← lift (as_int v);
  do! T1preset ← lift (truediv (Qc_of_Z TMR_Freq) countsPerSecond);
  ret T1preset.

(** *** Fetching values *)

(** The inner loop of [get_values]: one transport call per entry of
    [parameterDict], each stored under [params[axis][parameter]]. *)
Fixpoint get_values_axis (axis : Z) (items : list (string * string))
    (params : pdict) : M pdict :=
  match items with
  | [] => ret params
  | (parameter, cmd) :: items' =>
      try_except
        (do! v ← call cmd axis None None;
         lift (setitem2 params axis parameter v))
        (λ error, raise (NameError "getValuesError"))
        (λ params, get_values_axis axis items' params)
  end.

(** The outer loop, over [range(1,3)]. *)
Fixpoint get_values_axes (axes : list Z) (items : list (string * string))
    (params : pdict) : M pdict :=
  match axes with
  | [] => ret params
  | axis :: axes' =>
      do! params ← get_values_axis axis items (<[axis := ∅]> params);
      get_values_axes axes' items params
  end.

Definition get_values (parameterDict : list (string * string)) : M pdict :=
  get_values_axes [1; 2] parameterDict ∅.

Definition parameters_dict : list (string * string) :=
  [ ("countsPerRevolution", "a");
    ("TimerInterruptFreq", "b");
    ("StepPeriod", "i");
    ("MotorBoardVersion", "e") ].

(** [self.CPR = params] *)
Definition set_CPR (params : pdict) : M unit :=
  λ self, (Ok (), Instance (transport self) (self_params self) (Some params)).

Definition get_parameters : M pdict :=
  try_except (get_values parameters_dict)
    (λ error, raise (NameError "getParametersError"))
    (λ params,
       do! _ ← set_CPR params;
       ret params).

Definition current_dict : list (string * string) :=
  [ ("GotoTarget", "h");
    ("Position", "j");
    ("StepPeriod", "i");
    ("Status", "f") ].

(** [v - 0x800000] *)
Definition sub_offset (v : pyval) : result pyval :=
  match v with
  | VInt z => Ok (VInt (z - 0x800000))
  | _ => Raise TypeError
  end.

(** [self.decode_status(v)]: only a string can be indexed and parsed. *)
Definition decode_status_val (v : pyval) : result pyval :=
  match v with
  | VStr hexstring =>
      try! status ← Status.decode_status hexstring; Ok (VDict status)
  | VInt _ => Raise TypeError
  | VDict _ => Raise KeyError
  end.

(** [params[axis][parameter] = f(params[axis][parameter])] *)
Definition update2 (f : pyval → result pyval) (params : pdict) (axis : Z)
    (parameter : string) : result pdict :=
  try! d ← getitem params axis;
  try! v ← getitem d parameter;
  try! v' ← f v;
  setitem2 params axis parameter v'.

(** [for axis in range(1,3): params[axis][parameter] = f(...)] *)
Fixpoint for_axes (f : pyval → result pyval) (axes : list Z)
    (parameter : string) (params : pdict) : result pdict :=
  match axes with
  | [] => Ok params
  | axis :: axes' =>
      try! params ← update2 f params axis parameter;
      for_axes f axes' parameter params
  end.

(** [for parameter in [...]: for axis in range(1,3): ...] *)
Fixpoint for_parameters (f : pyval → result pyval)
    (parameters : list string) (params : pdict) : result pdict :=
  match parameters with
  | [] => Ok params
  | parameter :: parameters' =>
      try! params ← for_axes f [1; 2] parameter params;
      for_parameters f parameters' params
  end.

(** The two loops that follow the fetch in [get_current_values]: the
    offset is taken off the positions, then each status is decoded. *)
Definition correct_and_decode (f g : pyval → result pyval) (params : pdict)
  : result pdict :=
  try! params ← for_parameters f ["GotoTarget"; "Position"] params;
  try! params ← for_axes g [1; 2] "Status" params;
  Ok params.

Definition get_current_values : M pdict :=
  try_except (get_values current_dict)
    (λ error, ret ∅)
    (λ params, lift (correct_and_decode sub_offset decode_status_val params)).

(** *** Motion commands *)

Definition speedBit (Tracking fastSpeed : bool) : Z :=
  if Tracking then
    if fastSpeed then 0x0 else 0x1
  else
    if fastSpeed then 0x1 else 0x0.

(** [value] of [set_motion_mode]; a Python [bool] is the integer 0 or 1. *)
Definition motion_mode (Tracking fastSpeed CW : bool) : Z :=
  Z.lor
    (Z.lor (Z.land (Z.b2z Tracking) 0x01)
           (Z.shiftl (speedBit Tracking fastSpeed) 1))
    (Z.shiftl (Z.land (Z.b2z CW) 0x01) 7).

Definition set_motion_mode (axis : Z) (Tracking fastSpeed CW : bool)
  : M pyval :=
  call "G" axis (Some (motion_mode Tracking fastSpeed CW)) (Some 2).

Definition set_step_period (axis : Z) (value : Z) : M pyval :=
  call "I" axis (Some value) None.

(** [int(x)]: truncation towards zero. *)
Definition py_int (x : Qc) : Z := Z.quot (Qnum x) (Z.pos (Qden x)).

Definition set_speed (axis : Z) (degreesPerSecond : Qc) : M unit :=
  do! preset ← T1preset axis degreesPerSecond;
  do! _ ← set_step_period axis (py_int preset);
  ret ().

Definition get_axis_pos (axis : Z) : M pyval :=
  do! v ← call "j" axis None None;
  do! response ← lift (sub_offset v);
  ret response.

Definition set_goto_target (axis : Z) (target : Z) : M pyval :=
  call "S" axis (Some (target + 0x800000)) None.

Definition start_motion (axis : Z) : M pyval := call "J" axis None None.

Definition stop_motion (axis : Z) : M pyval := call "K" axis None None.

(** *** Transport calls of a fetch

    [get_values] asks for every entry of [parameterDict] on axis 1, then
    on axis 2. *)
Definition requests (parameterDict : list (string * string))
  : list (string * Z) :=
  flat_map (λ axis, map (λ item, (snd item, axis)) parameterDict) [1; 2].

(** What the transport does when it is asked [reqs] in order from [w]:
    it answers them all, or one call raises and the later ones are never
    made. *)
Inductive served : Type :=
| Answered (vals : list pyval) (w : World)
| Failed (e : exn) (w : World).

Fixpoint serve (reqs : list (string * Z)) (w : World) : served :=
  match reqs with
  | [] => Answered [] w
  | (cmd, axis) :: reqs' =>
      match send_cmd cmd axis None None w with
      | (Ok v, w') =>
          match serve reqs' w' with
          | Answered vals w'' => Answered (v :: vals) w''
          | Failed e w'' => Failed e w''
          end
      | (Raise e, w') => Failed e w'
      end
  end.

(** Some call of the transport fails with its communication error. *)
Definition transport_fails (reqs : list (string * Z)) (w : World) : bool :=
  match serve reqs w with
  | Failed (NameError _) _ => true
  | _ => false
  end.

(** The instance once the transport has moved to [w]. *)
Definition moved (self : instance) (w : World) : instance :=
  Instance w (self_params self) (self_CPR self).

(** The dictionary of one axis after the assignments [d[k] = v] for the
    pairs of [kvs], in order. *)
Definition fill (d : gmap string pyval) (kvs : list (string * pyval))
  : gmap string pyval :=
  foldl (λ d kv, <[fst kv := snd kv]> d) d kvs.

(** The dictionary [get_values] returns when the transport answers
    [vals]. *)
Definition assemble (parameterDict : list (string * string))
    (vals : list pyval) : pdict :=
  let keys := map fst parameterDict in
  let n := length parameterDict in
  <[2 := fill ∅ (zip keys (drop n vals))]>
    (<[1 := fill ∅ (zip keys (take n vals))]> ∅).

(** The keys of [parameters_dict] and of [current_dict]. *)
Definition parameter_keys : gset string :=
  {[ "countsPerRevolution"; "TimerInterruptFreq"; "StepPeriod";
     "MotorBoardVersion" ]}.

Definition current_keys : gset string :=
  {[ "GotoTarget"; "Position"; "StepPeriod"; "Status" ]}.

(** A fetched dictionary is complete for [keys]: both axes, and under each
    exactly the keys [keys]. *)
Definition complete (keys : gset string) (p : pdict) : Prop :=
  dom p = {[ 1; 2 ]} ∧
  ∀ axis d, p !! axis = Some d → dom d = keys.

(** *** init

    [self.params = self.get_parameters()], tried again after a pause each
    time the fetch fails with [NameError]; any other exception leaves
    [init].  The loop has no bound of its own: [fuel] bounds the number of
    attempts, and the answer is [None] when they are used up.  The pause and
    the depth of Python's call stack are not modelled. *)

(** [self.params = params] *)
Definition set_params (params : pdict) : M unit :=
  λ self, (Ok (), Instance (transport self) (Some params) (self_CPR self)).

Fixpoint init (fuel : nat) (self : instance)
  : option (result unit * instance) :=
  match fuel with
  | O => None
  | S fuel' =>
      match get_parameters self with
      | (Ok params, self') => Some (set_params params self')
      | (Raise (NameError error), self') => init fuel' self'
      | (Raise e, self') => Some (Raise e, self')
      end
  end.

(** The transport fails [k] fetches of the parameters with its
    communication error and answers the next one in full. *)
Fixpoint fails_then_answers (k : nat) (w : World) : bool :=
  match serve (requests parameters_dict) w with
  | Answered _ _ => match k with O => true | S _ => false end
  | Failed (NameError _) w' =>
      match k with O => false | S k' => fails_then_answers k' w' end
  | Failed _ _ => false
  end.

(** *** test_goto *)

(** [params['Status']['Stopped']] *)
Definition status_stopped (params : gmap string pyval) : result bool :=
  try! st ← getitem params "Status";
  match st with
  | VDict d => getitem d "Stopped"
  | _ => Raise TypeError
  end.

(** [self.get_current_values()[axis]] *)
Definition poll (axis : Z) : M (gmap string pyval) :=
  do! values ← get_current_values;
  lift (getitem values axis).

(** The loop [while not params['Status']['Stopped']]: pause, poll again.
    [fuel] bounds the number of polls made inside the loop. *)
Fixpoint wait_stopped (fuel : nat) (axis : Z) (params : gmap string pyval)
    (self : instance) {struct fuel} : option (result unit * instance) :=
  match status_stopped params with
  | Raise e => Some (Raise e, self)
  | Ok true => Some (Ok (), self)
  | Ok false =>
      match fuel with
      | O => None
      | S fuel' =>
          match poll axis self with
          | (Ok params', self') => wait_stopped fuel' axis params' self'
          | (Raise e, self') => Some (Raise e, self')
          end
      end
  end.

(** The commands of [test_goto] up to the first poll. *)
Definition start_goto (axis : Z) (X : Qc) : M (gmap string pyval) :=
  do! _ ← stop_motion axis;
  do! _ ← set_motion_mode axis false false false;
  do! _ ← set_speed axis (Qc_of_Z 5);
  do! posCounts ← degrees2counts axis X;
  do! _ ← set_goto_target axis (py_int posCounts);
  do! _ ← start_motion axis;
  poll axis.

Definition test_goto (fuel : nat) (axis : Z) (X : Qc) (self : instance)
  : option (result unit * instance) :=
  match start_goto axis X self with
  | (Ok params, self') => wait_stopped fuel axis params self'
  | (Raise e, self') => Some (Raise e, self')
  end.

End Motors.

Arguments Instance {World} _ _ _.
Arguments transport {World} _.
Arguments self_params {World} _.
Arguments self_CPR {World} _.
Arguments ret {World A} _ _.
Arguments raise {World A} _ _.
Arguments lift {World A} _ _.
Arguments bind {World A B} _ _ _.
Arguments try_except {World A B} _ _ _ _.
Arguments self_param {World} _ _ _.
Arguments degrees2counts {World} _ _ _.
Arguments counts2degrees {World} _ _ _.
Arguments T1preset {World} _ _ _.
Arguments set_CPR {World} _ _.
Arguments Answered {World} _ _.
Arguments Failed {World} _ _.
Arguments moved {World} _ _.
Arguments call {World} _ _ _ _ _ _.
Arguments get_values_axis {World} _ _ _ _ _.
Arguments get_values_axes {World} _ _ _ _ _.
Arguments get_values {World} _ _ _.
Arguments get_parameters {World} _ _.
Arguments get_current_values {World} _ _.
Arguments set_motion_mode {World} _ _ _ _ _ _.
Arguments set_step_period {World} _ _ _ _.
Arguments set_speed {World} _ _ _ _.
Arguments get_axis_pos {World} _ _ _.
Arguments set_goto_target {World} _ _ _ _.
Arguments start_motion {World} _ _ _.
Arguments stop_motion {World} _ _ _.
Arguments serve {World} _ _ _.
Arguments transport_fails {World} _ _ _.
Arguments set_params {World} _ _.
Arguments init {World} _ _ _.
Arguments fails_then_answers {World} _ _ _.
Arguments poll {World} _ _ _.
Arguments wait_stopped {World} _ _ _ _ _.
Arguments start_goto {World} _ _ _ _.
Arguments test_goto {World} _ _ _ _ _.

(** ** A scripted transport

    A test double for [send_cmd]: the state is the list of outcomes still to
    be played, one per call; once the script is exhausted every call times
    out. *)
Module Scripted.

Definition send_cmd (cmd : string) (axis : Z) (data ndigits : option Z)
    (w : list (result pyval)) : result pyval * list (result pyval) :=
  match w with
  | [] => (Raise (NameError "SynScanTimeoutError"), [])
  | r :: w' => (r, w')
  end.

(** A fresh instance over a script, no attribute set yet. *)
Definition fresh (w : list (result pyval)) : instance (list (result pyval)) :=
  Instance w None None.

(** An instance whose cached parameters are [p]. *)
Definition cached (p : pdict) : instance (list (result pyval)) :=
  Instance [] (Some p) (Some p).

(** Parameters of a mount: the same values on both axes. *)
Definition mount (cpr freq : Z) : pdict :=
  let d : gmap string pyval :=
    <["MotorBoardVersion" := VInt 0x020C]>
      (<["StepPeriod" := VInt 0x10]>
         (<["TimerInterruptFreq" := VInt freq]>
            (<["countsPerRevolution" := VInt cpr]> ∅))) in
  <[2 := d]> (<[1 := d]> ∅).

(** One poll answered in full, and the dictionary it gives. *)
Definition poll_script : list (result pyval) :=
  [ Ok (VInt 0x800064); Ok (VInt 0x7FFFFF); Ok (VInt 0x10); Ok (VStr "101");
    Ok (VInt 0x800000); Ok (VInt 0x800001); Ok (VInt 0x20); Ok (VStr "310") ].

Definition poll_result : pdict :=
  assemble current_dict
    [ VInt 100; VInt (-1); VInt 0x10; VDict (Status.decode_digits 1 0 1);
      VInt 0; VInt 1; VInt 0x20; VDict (Status.decode_digits 3 1 0) ].

End Scripted.

(** * Properties *)

Import Status.

(** ** The status decoder *)

Lemma int16_range (c : ascii) (A : Z) : int16 c = Ok A → 0 ≤ A < 16.
Proof.
  unfold int16. intros H.
  repeat match type of H with
         | (if ?b then _ else _) = _ => destruct b eqn:?
         end; inversion H; subst; lia.
Qed.

Lemma b2z_testbit (b : bool) (n : Z) :
  Z.testbit (Z.b2z b) n = b && (n =? 0).
Proof.
  destruct b; simpl.
  - destruct n; reflexivity.
  - apply Z.bits_0.
Qed.

(** [(A & 2^k) >> k] is bit [k] of [A], as 0 or 1. *)
Lemma mask_shift (A k : Z) :
  0 ≤ k → Z.shiftr (Z.land A (2 ^ k)) k = Z.b2z (Z.testbit A k).
Proof.
  intros Hk. apply Z.bits_inj'. intros n Hn.
  rewrite Z.shiftr_spec, Z.land_spec, Z.pow2_bits_eqb, b2z_testbit by lia.
  destruct (Z.eqb_spec n 0) as [->|Hne].
  - rewrite Z.add_0_l, Z.eqb_refl. reflexivity.
  - destruct (Z.eqb_spec k (n + k)); [lia|]. rewrite !andb_false_r. reflexivity.
Qed.

Lemma py_bool_b2z (b : bool) : py_bool (Z.b2z b) = b.
Proof. destruct b; reflexivity. Qed.

Lemma py_not_b2z (b : bool) : py_not (Z.b2z b) = negb b.
Proof. destruct b; reflexivity. Qed.

Lemma py_bool_bit (A k : Z) :
  0 ≤ k → py_bool (Z.shiftr (Z.land A (2 ^ k)) k) = Z.testbit A k.
Proof. intros Hk. rewrite mask_shift by assumption. apply py_bool_b2z. Qed.

Lemma land_1 (A : Z) : Z.land A 1 = Z.b2z (Z.testbit A 0).
Proof. rewrite <- (mask_shift A 0) by lia. rewrite Z.shiftr_0_r. reflexivity. Qed.

(** The seven entries of a decoded status, as bits of the three digits. *)
Lemma decode_digits_lookup (A B C : Z) :
  let st := decode_digits A B C in
  st !! "Tracking" = Some (Z.testbit A 0) ∧
  st !! "CCW" = Some (Z.testbit A 1) ∧
  st !! "FastSpeed" = Some (Z.testbit A 2) ∧
  st !! "Stopped" = Some (negb (Z.testbit B 0)) ∧
  st !! "Blocked" = Some (Z.testbit B 1) ∧
  st !! "InitDone" = Some (negb (Z.testbit C 0)) ∧
  st !! "LevelSwitchOn" = Some (Z.testbit B 1).
Proof.
  pose proof (py_bool_bit A 1) as HA1. pose proof (py_bool_bit A 2) as HA2.
  pose proof (py_bool_bit B 1) as HB1.
  change (2 ^ 1) with 2 in *. change (2 ^ 2) with 4 in *.
  unfold decode_digits. cbv zeta.
  rewrite HA1, HA2, HB1, !land_1, py_bool_b2z, !py_not_b2z by lia.
  repeat split; reflexivity.
Qed.

Lemma decode_digits_dom (A B C : Z) : dom (decode_digits A B C) = flags.
Proof.
  unfold decode_digits, flags. cbv zeta.
  rewrite !dom_insert_L, dom_empty_L. set_solver.
Qed.

(** C1 (as amended).  On ["000"] the decoder answers [Stopped = true] and
    every flag read from the first two digits false; on ["701"] it answers
    [Tracking], [CCW] and [FastSpeed] true, [Blocked] and [LevelSwitchOn]
    false, and [Stopped] true: a second digit of 0 is a stopped motor. *)
Theorem decode_status_test_vectors :
  ∃ st0 st7 : status,
    decode_status "000" = Ok st0 ∧
    decode_status "701" = Ok st7 ∧
    (st0 !! "Tracking" = Some false ∧ st0 !! "CCW" = Some false ∧
     st0 !! "FastSpeed" = Some false ∧ st0 !! "Blocked" = Some false ∧
     st0 !! "LevelSwitchOn" = Some false ∧ st0 !! "Stopped" = Some true) ∧
    (st7 !! "Tracking" = Some true ∧ st7 !! "CCW" = Some true ∧
     st7 !! "FastSpeed" = Some true ∧ st7 !! "Blocked" = Some false ∧
     st7 !! "LevelSwitchOn" = Some false ∧ st7 !! "Stopped" = Some true).
Proof.
  exists (decode_digits 0 0 0), (decode_digits 7 0 1).
  repeat split; reflexivity.
Qed.

(** C1, counterexample.  The vector ["701"] does not decode to a running
    motor: [Stopped] is not false. *)
Lemma decode_status_701_not_running :
  ¬ ∃ st : status, decode_status "701" = Ok st ∧ st !! "Stopped" = Some false.
Proof.
  intros (st & Hst & Hstopped).
  change (Ok (decode_digits 7 0 1) = Ok st) in Hst.
  injection Hst as <-. discriminate Hstopped.
Qed.

(** The third digit: [InitDone] is the negation of its bit 0, so it is true
    on ["000"] and false on ["701"], where the docstring of [decode_status]
    reads bit 0 set as "Init done". *)
Lemma decode_status_InitDone_vectors :
  (∃ st : status, decode_status "000" = Ok st ∧ st !! "InitDone" = Some true) ∧
  (∃ st : status, decode_status "701" = Ok st ∧ st !! "InitDone" = Some false).
Proof.
  split;
    [exists (decode_digits 0 0 0) | exists (decode_digits 7 0 1)];
    split; reflexivity.
Qed.

(** C2.  A string of three hex digits [a b c] with values [A], [B], [C]
    (each below 16) decodes to exactly the seven flags, with
    [Tracking = bit0(A)], [CCW = bit1(A)], [FastSpeed = bit2(A)],
    [Stopped = not bit0(B)], [Blocked = bit1(B)], [InitDone = not bit0(C)]
    and [LevelSwitchOn = bit1(B)], hence [LevelSwitchOn = Blocked]. *)
Theorem decode_status_bits (a b c : ascii) (A B C : Z) :
  int16 a = Ok A → int16 b = Ok B → int16 c = Ok C →
  (0 ≤ A < 16 ∧ 0 ≤ B < 16 ∧ 0 ≤ C < 16) ∧
  ∃ st : status,
    decode_status (String a (String b (String c EmptyString))) = Ok st ∧
    dom st = flags ∧
    st !! "Tracking" = Some (Z.testbit A 0) ∧
    st !! "CCW" = Some (Z.testbit A 1) ∧
    st !! "FastSpeed" = Some (Z.testbit A 2) ∧
    st !! "Stopped" = Some (negb (Z.testbit B 0)) ∧
    st !! "Blocked" = Some (Z.testbit B 1) ∧
    st !! "InitDone" = Some (negb (Z.testbit C 0)) ∧
    st !! "LevelSwitchOn" = Some (Z.testbit B 1) ∧
    st !! "LevelSwitchOn" = st !! "Blocked".
Proof.
  intros Ha Hb Hc. split.
  - split; [|split]; eapply int16_range; eassumption.
  - exists (decode_digits A B C).
    destruct (decode_digits_lookup A B C)
      as (Ht & Hccw & Hf & Hs & Hbl & Hi & Hl).
    split.
    { unfold decode_status, index. simpl. rewrite Ha. simpl.
      rewrite Hb. simpl. rewrite Hc. reflexivity. }
    split; [apply decode_digits_dom|].
    repeat (split; [assumption|]). congruence.
Qed.

Lemma decode_status_bits_witness :
  ∃ st : status,
    decode_status "a5e" = Ok st ∧
    st !! "CCW" = Some true ∧ st !! "Stopped" = Some false ∧
    st !! "InitDone" = Some true.
Proof.
  destruct (decode_status_bits "a" "5" "e" 10 5 14)
    as (_ & st & Hst & _ & _ & Hccw & _ & Hs & _ & Hi & _);
    [reflexivity | reflexivity | reflexivity |].
  exists st. repeat split; assumption.
Defined.

(** ** Malformed status strings *)

Lemma all_hex_prefix3 (a b c : ascii) (s : string) :
  all_hex (prefix3 (String a (String b (String c s)))) =
  is_hex a && (is_hex b && is_hex c).
Proof.
  unfold prefix3. cbn [String.substring all_hex].
  destruct s; cbn [String.substring all_hex]; rewrite andb_true_r; reflexivity.
Qed.


Lemma int16_cases (c : ascii) :
  (∃ A, int16 c = Ok A) ∨ int16 c = Raise ValueError.
Proof.
  unfold int16.
  repeat match goal with
         | |- context [if ?b then _ else _] => destruct b
         end; eauto.
Qed.

Ltac int16_case c :=
  let A := fresh "A" in
  let H := fresh "H" in
  destruct (int16_cases c) as [[A H]|H]; rewrite H; simpl; auto.


(** ** The motion mode byte *)

(** C3.  The mode byte has the tracking flag in bit 0, the speed bit in
    bit 1 and the clockwise flag in bit 7, and nothing else; the speed bit
    is 0 for fast and 1 for slow when tracking, 1 for fast and 0 for slow
    otherwise; tracking-slow-counterclockwise gives 0x03 and
    goto-fast-clockwise gives 0x82; the byte goes to the transport with
    command [G] and a width of two hex digits. *)
Theorem set_motion_mode_byte (Tracking fastSpeed CW : bool) :
  let value := motion_mode Tracking fastSpeed CW in
  (Z.testbit value 0 = Tracking ∧
   Z.b2z (Z.testbit value 1) = speedBit Tracking fastSpeed ∧
   Z.testbit value 7 = CW) ∧
  value = Z.b2z Tracking + 2 * speedBit Tracking fastSpeed + 128 * Z.b2z CW ∧
  0 ≤ value < 256 ∧
  (speedBit true true = 0x0 ∧ speedBit true false = 0x1 ∧
   speedBit false true = 0x1 ∧ speedBit false false = 0x0) ∧
  (motion_mode true false false = 0x03 ∧ motion_mode false true true = 0x82) ∧
  ∀ (World : Type) send_cmd (axis : Z) (self : instance World),
    set_motion_mode send_cmd axis Tracking fastSpeed CW self =
    (let '(r, w) := send_cmd "G" axis (Some value) (Some 2) (transport self) in
     (r, moved self w)).
Proof.
  destruct Tracking, fastSpeed, CW; cbv zeta;
    (repeat split; try reflexivity; try discriminate).
Qed.

(** ** Fetching values from the transport *)

Section Fetch.

Context {World : Type}.
Variable send_cmd :
  string → Z → option Z → option Z → World → result pyval * World.

Implicit Types (self : instance World) (w : World).

Lemma moved_transport self : moved self (transport self) = self.
Proof. destruct self; reflexivity. Qed.

Lemma moved_moved self w w' : moved (moved self w) w' = moved self w'.
Proof. reflexivity. Qed.

Lemma serve_app (l1 l2 : list (string * Z)) w :
  serve send_cmd (l1 ++ l2) w =
  match serve send_cmd l1 w with
  | Answered v1 w1 =>
      match serve send_cmd l2 w1 with
      | Answered v2 w2 => Answered (v1 ++ v2) w2
      | Failed e w2 => Failed e w2
      end
  | Failed e w1 => Failed e w1
  end.
Proof.
  revert w. induction l1 as [|[cmd axis] l1 IH]; intros w; simpl.
  - destruct (serve send_cmd l2 w); reflexivity.
  - destruct (send_cmd cmd axis None None w) as [[v|e] w']; [|reflexivity].
    rewrite IH. destruct (serve send_cmd l1 w') as [v1 w1|]; [|reflexivity].
    destruct (serve send_cmd l2 w1); reflexivity.
Qed.

Lemma serve_length (reqs : list (string * Z)) w vals w' :
  serve send_cmd reqs w = Answered vals w' → length vals = length reqs.
Proof.
  revert w vals. induction reqs as [|[cmd axis] reqs IH]; intros w vals; simpl.
  - intros [= <- _]. reflexivity.
  - destruct (send_cmd cmd axis None None w) as [[v|e] w1]; [|discriminate].
    destruct (serve send_cmd reqs w1) as [vs w2|] eqn:Hs; [|discriminate].
    intros [= <- <-]. simpl. f_equal. eauto.
Qed.

(** The inner loop of [get_values] against the transport: it stores the
    answers under the axis, or stops at the first call that raises. *)
Lemma get_values_axis_serve (axis : Z) (items : list (string * string)) :
  ∀ (params : pdict) (d : gmap string pyval) self,
    params !! axis = Some d →
    get_values_axis send_cmd axis items params self =
    match serve send_cmd (map (λ item, (snd item, axis)) items)
            (transport self) with
    | Answered vals w =>
        (Ok (<[axis := fill d (zip (map fst items) vals)]> params),
         moved self w)
    | Failed (NameError _) w => (Raise (NameError "getValuesError"), moved self w)
    | Failed e w => (Raise e, moved self w)
    end.
Proof.
  induction items as [|[parameter cmd] items IH]; intros params d self Hd.
  - simpl. rewrite moved_transport, insert_id by assumption. reflexivity.
  - simpl. unfold try_except, bind, call, lift, setitem2, getitem.
    destruct (send_cmd cmd axis None None (transport self)) as [[v|e] w1].
    + rewrite Hd. simpl.
      rewrite (IH _ (<[parameter := v]> d)) by apply lookup_insert_eq.
      simpl.
      destruct (serve send_cmd _ w1) as [vals w2|e w2]; [|reflexivity].
      rewrite insert_insert_eq. reflexivity.
    + destruct e; reflexivity.
Qed.

(** [get_values] against the transport. *)
Lemma get_values_serve (items : list (string * string)) self :
  get_values send_cmd items self =
  match serve send_cmd (requests items) (transport self) with
  | Answered vals w => (Ok (assemble items vals), moved self w)
  | Failed (NameError _) w => (Raise (NameError "getValuesError"), moved self w)
  | Failed e w => (Raise e, moved self w)
  end.
Proof.
  unfold get_values, requests. simpl. rewrite app_nil_r, serve_app.
  unfold bind.
  rewrite (get_values_axis_serve 1 items _ ∅) by apply lookup_insert_eq.
  destruct (serve send_cmd _ (transport self)) as [v1 w1|e w1] eqn:H1;
    [|destruct e; reflexivity].
  rewrite (get_values_axis_serve 2 items _ ∅) by apply lookup_insert_eq.
  simpl.
  destruct (serve send_cmd _ w1) as [v2 w2|e w2] eqn:H2;
    [|destruct e; reflexivity].
  apply serve_length in H1. rewrite length_map in H1.
  unfold assemble.
  rewrite take_app_length', drop_app_length', !insert_insert_eq by done.
  reflexivity.
Qed.

End Fetch.

(** ** The facade over an arbitrary transport *)

Section Facade.

Context {World : Type}.
Variable send_cmd :
  string → Z → option Z → option Z → World → result pyval * World.

Implicit Types (self : instance World) (w : World).

(** *** Shape of a fetched dictionary *)

Lemma dom_fill (kvs : list (string * pyval)) :
  ∀ d : gmap string pyval, dom (fill d kvs) = dom d ∪ list_to_set kvs.*1.
Proof.
  induction kvs as [|[k v] kvs IH]; intros d; simpl.
  - set_solver.
  - unfold fill in *. simpl. rewrite IH, dom_insert_L. set_solver.
Qed.

Lemma assemble_complete (items : list (string * string)) (vals : list pyval) :
  length vals = (length items + length items)%nat →
  complete (list_to_set items.*1) (assemble items vals).
Proof.
  intros Hlen. unfold complete, assemble. split.
  - rewrite !dom_insert_L, dom_empty_L. set_solver.
  - intros axis d. rewrite !lookup_insert. repeat case_decide; try done.
    + intros [= <-]. rewrite dom_fill, fst_zip, dom_empty_L.
      * set_solver.
      * rewrite length_map, length_drop. lia.
    + intros [= <-]. rewrite dom_fill, fst_zip, dom_empty_L.
      * set_solver.
      * rewrite length_map, length_take. lia.
Qed.

Lemma parameter_keys_eq : list_to_set parameters_dict.*1 = parameter_keys.
Proof. unfold parameter_keys. simpl. set_solver. Qed.

Lemma current_keys_eq : list_to_set current_dict.*1 = current_keys.
Proof. unfold current_keys. simpl. set_solver. Qed.

(** *** get_parameters *)

(** C9.  [get_parameters] returns a dictionary only when the transport has
    answered all eight requests, and then the dictionary holds the four
    parameters of both axes; when a call fails the fetch raises: the
    communication error becomes [NameError('getParametersError')], any other
    exception passes through.  No partial dictionary is returned. *)
Theorem get_parameters_all_or_nothing self :
  match serve send_cmd (requests parameters_dict) (transport self) with
  | Answered vals w =>
      length vals = 8%nat ∧
      get_parameters send_cmd self =
        (Ok (assemble parameters_dict vals),
         Instance w (self_params self) (Some (assemble parameters_dict vals))) ∧
      complete parameter_keys (assemble parameters_dict vals)
  | Failed e w =>
      get_parameters send_cmd self =
        (Raise match e with
               | NameError _ => NameError "getParametersError"
               | _ => e
               end,
         moved self w)
  end.
Proof.
  unfold get_parameters, try_except. rewrite get_values_serve.
  destruct (serve send_cmd _ (transport self)) as [vals w|e w] eqn:Hs.
  - apply serve_length in Hs. split; [exact Hs|]. split; [reflexivity|].
    rewrite <- parameter_keys_eq. apply assemble_complete. exact Hs.
  - destruct e; reflexivity.
Qed.

(** *** get_current_values *)

Lemma update2_eq (f : pyval → result pyval) (params : pdict) (axis : Z)
    (k : string) (d : gmap string pyval) (v : pyval) :
  params !! axis = Some d → d !! k = Some v →
  update2 f params axis k =
  (try! v' ← f v; Ok (<[axis := <[k := v']> d]> params)).
Proof.
  intros Hd Hv. unfold update2, setitem2, getitem. rewrite Hd. simpl.
  rewrite Hv. reflexivity.
Qed.

Ltac step_update f v :=
  erewrite update2_eq by reflexivity; cbn [fst snd];
  destruct (f v); cbn [rbind]; [|reflexivity].

(** The two loops on a freshly fetched dictionary: four corrections, in the
    order of the loops, then two decodings. *)
Lemma correct_and_decode_assemble (f g : pyval → result pyval)
    (v1 v2 v3 v4 v5 v6 v7 v8 : pyval) :
  correct_and_decode f g
    (assemble current_dict [v1; v2; v3; v4; v5; v6; v7; v8]) =
  (try! g1 ← f v1; try! g2 ← f v5; try! p1 ← f v2; try! p2 ← f v6;
   try! s1 ← g v4; try! s2 ← g v8;
   Ok (assemble current_dict [g1; p1; v3; s1; g2; p2; v7; s2])).
Proof.
  unfold correct_and_decode. cbn [for_parameters for_axes].
  step_update f v1. step_update f v5. step_update f v2. step_update f v6.
  step_update g v4. step_update g v8.
  reflexivity.
Qed.

Lemma get_current_values_serve self :
  get_current_values send_cmd self =
  match serve send_cmd (requests current_dict) (transport self) with
  | Answered vals w =>
      (correct_and_decode sub_offset decode_status_val
         (assemble current_dict vals), moved self w)
  | Failed (NameError _) w => (Ok ∅, moved self w)
  | Failed e w => (Raise e, moved self w)
  end.
Proof.
  unfold get_current_values, try_except. rewrite get_values_serve.
  destruct (serve send_cmd _ (transport self)) as [vals w|e w];
    [reflexivity | destruct e; reflexivity].
Qed.

Lemma decode_status_ok (s : string) (st : status) :
  decode_status s = Ok st → ∃ A B C, st = decode_digits A B C.
Proof.
  unfold decode_status.
  destruct (index s 0) as [c0|]; [simpl|discriminate].
  destruct (int16 c0) as [A|]; [simpl|discriminate].
  destruct (index s 1) as [c1|]; [simpl|discriminate].
  destruct (int16 c1) as [B|]; [simpl|discriminate].
  destruct (index s 2) as [c2|]; [simpl|discriminate].
  destruct (int16 c2) as [C|]; [simpl|discriminate].
  intros [= <-]. eauto.
Qed.

Lemma decode_status_val_ok (v v' : pyval) :
  decode_status_val v = Ok v' → ∃ st : status, v' = VDict st ∧ dom st = flags.
Proof.
  destruct v as [z|s|d]; simpl; try discriminate.
  destruct (decode_status s) as [st|] eqn:Hs; simpl; [|discriminate].
  intros [= <-]. exists st. split; [reflexivity|].
  apply decode_status_ok in Hs as (A & B & C & ->). apply decode_digits_dom.
Qed.

Lemma sub_offset_ok (v v' : pyval) :
  sub_offset v = Ok v' → ∃ z, v = VInt z ∧ v' = VInt (z - 0x800000).
Proof. destruct v; simpl; [|discriminate..]. intros [= <-]. eauto. Qed.

(** A non-empty answer of [get_current_values]: the transport answered the
    eight requests, the positions were integers and the statuses decoded. *)
Lemma get_current_values_nonempty self (p : pdict) self' :
  get_current_values send_cmd self = (Ok p, self') → p ≠ ∅ →
  ∃ g1 p1 s1 f1 g2 p2 s2 f2 (st1 st2 : status) w,
    serve send_cmd (requests current_dict) (transport self) =
      Answered [VInt g1; VInt p1; s1; f1; VInt g2; VInt p2; s2; f2] w ∧
    dom st1 = flags ∧ dom st2 = flags ∧
    p = assemble current_dict
          [VInt (g1 - 0x800000); VInt (p1 - 0x800000); s1; VDict st1;
           VInt (g2 - 0x800000); VInt (p2 - 0x800000); s2; VDict st2].
Proof.
  rewrite get_current_values_serve.
  destruct (serve send_cmd _ (transport self)) as [vals w|e w] eqn:Hs.
  - pose proof (serve_length _ _ _ _ _ Hs) as Hlen. simpl in Hlen.
    do 8 (destruct vals as [|? vals]; [discriminate Hlen|]).
    destruct vals; [clear Hlen|discriminate Hlen].
    rewrite correct_and_decode_assemble.
    repeat match goal with
           | |- context [rbind (sub_offset ?v)] =>
               destruct (sub_offset v) as [?|?] eqn:?; cbn [rbind];
               [|discriminate]
           | |- context [rbind (decode_status_val ?v)] =>
               destruct (decode_status_val v) as [?|?] eqn:?; cbn [rbind];
               [|discriminate]
           end.
    repeat match goal with
           | H : sub_offset _ = Ok _ |- _ =>
               apply sub_offset_ok in H as (? & -> & ->)
           | H : decode_status_val _ = Ok _ |- _ =>
               apply decode_status_val_ok in H as (? & -> & ?)
           end.
    intros [= <- _] _. eauto 20.
  - destruct e; intros [= <- _] Hne; congruence.
Qed.

(** C8.  When a call of the transport fails during [get_current_values],
    whichever of the eight it is, the method returns the empty dictionary
    and raises nothing. *)
Theorem get_current_values_transport_failure self :
  transport_fails send_cmd (requests current_dict) (transport self) = true →
  ∃ w, get_current_values send_cmd self = (Ok ∅, moved self w).
Proof.
  unfold transport_fails. rewrite get_current_values_serve.
  destruct (serve send_cmd _ (transport self)) as [vals w|e w];
    [discriminate|].
  destruct e; try discriminate. eauto.
Qed.

(** C10.  A non-empty result of [get_current_values] has both axes, under
    each axis exactly [GotoTarget], [Position], [StepPeriod] and [Status],
    and each [Status] is a dictionary with exactly the seven flags. *)
Theorem get_current_values_shape self (p : pdict) self' :
  get_current_values send_cmd self = (Ok p, self') → p ≠ ∅ →
  complete current_keys p ∧
  ∀ axis d, p !! axis = Some d →
    ∃ st : status, d !! "Status" = Some (VDict st) ∧ dom st = flags.
Proof.
  intros Hrun Hne.
  destruct (get_current_values_nonempty _ _ _ Hrun Hne)
    as (g1 & p1 & s1 & f1 & g2 & p2 & s2 & f2 & st1 & st2 & w
        & _ & Hst1 & Hst2 & ->).
  split.
  - rewrite <- current_keys_eq. apply assemble_complete. reflexivity.
  - intros axis d. unfold assemble. rewrite !lookup_insert.
    repeat case_decide; try done; intros [= <-]; eauto.
Qed.

End Facade.

(** ** Unit conversions *)

Section Conversions.

Context {World : Type}.

Implicit Types (self : instance World) (degrees counts : Qc).


Lemma Qc_of_Z_zero (z : Z) : Qc_of_Z z = Q2Qc 0 ↔ z = 0.
Proof.
  unfold Qc_of_Z. rewrite Q2Qc_eq_iff. unfold Qeq, inject_Z. simpl. lia.
Qed.

Lemma truediv_nonzero (a b : Qc) : b ≠ Q2Qc 0 → truediv a b = Ok (a / b)%Qc.
Proof. intros Hb. unfold truediv. case_decide; [contradiction|reflexivity]. Qed.

Lemma truediv_zero (a : Qc) : truediv a (Q2Qc 0) = Raise ZeroDivisionError.
Proof. unfold truediv. case_decide; [reflexivity|contradiction]. Qed.

Lemma self_param_cached self (p : pdict) (d : gmap string pyval) (axis : Z)
    (name : string) :
  self_params self = Some p → p !! axis = Some d →
  self_param axis name self = (getitem d name, self).
Proof.
  intros Hp Hd. unfold self_param, getitem. rewrite Hp, Hd. reflexivity.
Qed.

Lemma degrees2counts_cached self p d axis cpr degrees :
  self_params self = Some p → p !! axis = Some d →
  d !! "countsPerRevolution" = Some (VInt cpr) →
  degrees2counts axis degrees self =
  (Ok (degrees * Qc_of_Z cpr / Qc_of_Z 360)%Qc, self).
Proof.
  intros Hp Hd Hc. unfold degrees2counts, bind, lift, ret.
  rewrite (self_param_cached _ _ _ _ _ Hp Hd). unfold getitem. rewrite Hc.
  reflexivity.
Qed.

Lemma counts2degrees_cached self p d axis cpr counts :
  self_params self = Some p → p !! axis = Some d →
  d !! "countsPerRevolution" = Some (VInt cpr) → cpr ≠ 0 →
  counts2degrees axis counts self =
  (Ok (counts * Qc_of_Z 360 / Qc_of_Z cpr)%Qc, self).
Proof.
  intros Hp Hd Hc Hnz. unfold counts2degrees, bind, lift, ret.
  rewrite (self_param_cached _ _ _ _ _ Hp Hd). unfold getitem. rewrite Hc.
  cbn [as_int rbind]. rewrite truediv_nonzero; [reflexivity|].
  rewrite Qc_of_Z_zero. exact Hnz.
Qed.



End Conversions.

(** ** Positions and their offset *)

Section Positions.

Context {World : Type}.
Variable send_cmd :
  string → Z → option Z → option Z → World → result pyval * World.

Implicit Types (self : instance World) (w : World).


End Positions.

(** ** The theorems at a scripted transport *)




Lemma get_current_values_transport_failure_witness :
  ∃ w,
    get_current_values Scripted.send_cmd
      (Scripted.fresh [Ok (VInt 0x800064); Raise (NameError "SynScanTimeoutError")]) =
    (Ok ∅, Scripted.fresh w).
Proof.
  apply (get_current_values_transport_failure Scripted.send_cmd
           (Scripted.fresh
              [Ok (VInt 0x800064); Raise (NameError "SynScanTimeoutError")])).
  reflexivity.
Defined.

Lemma get_current_values_shape_witness :
  complete current_keys Scripted.poll_result ∧
  ∀ axis d, Scripted.poll_result !! axis = Some d →
    ∃ st : status, d !! "Status" = Some (VDict st) ∧ dom st = flags.
Proof.
  apply (get_current_values_shape Scripted.send_cmd
           (Scripted.fresh Scripted.poll_script) Scripted.poll_result (Scripted.fresh [])).
  - vm_compute. reflexivity.
  - apply insert_non_empty.
Defined.

(** * Further properties of the code *)

(** ** Unit conversions: the other direction, and the edges *)

Section MoreConversions.

Context {World : Type}.

Implicit Types (self : instance World) (degrees counts : Qc).

Lemma Qc_of_Z_nonzero (z : Z) : z ≠ 0 → Qc_of_Z z ≠ 0%Qc.
Proof. intros Hz H. apply Hz. apply Qc_of_Z_zero. exact H. Qed.


(** X2.  A cached [countsPerRevolution] of 0: [counts2degrees] raises
    [ZeroDivisionError] on every input, [degrees2counts] answers 0 on every
    input, and so [T1preset] raises at every speed. *)
Theorem zero_countsPerRevolution self p d axis :
  self_params self = Some p → p !! axis = Some d →
  d !! "countsPerRevolution" = Some (VInt 0) →
  (∀ counts, counts2degrees axis counts self = (Raise ZeroDivisionError, self)) ∧
  (∀ degrees, degrees2counts axis degrees self = (Ok 0%Qc, self)) ∧
  (∀ degreesPerSecond,
     ∃ e, T1preset axis degreesPerSecond self = (Raise e, self)).
Proof.
  intros Hp Hd Hc.
  assert (∀ degrees, degrees2counts axis degrees self = (Ok 0%Qc, self))
    as Hzero.
  { intros degrees. erewrite degrees2counts_cached by eassumption.
    do 2 f_equal. pose proof (Qc_of_Z_nonzero 360 ltac:(lia)).
    change (Qc_of_Z 0) with 0%Qc. field. assumption. }
  split; [|split; [exact Hzero|]].
  - intros counts. unfold counts2degrees, bind, lift, ret.
    rewrite (self_param_cached _ _ _ _ _ Hp Hd). unfold getitem. rewrite Hc.
    cbn [as_int rbind]. change (Qc_of_Z 0) with (Q2Qc 0).
    rewrite truediv_zero. reflexivity.
  - intros dps. unfold T1preset, bind, lift, ret. rewrite Hzero.
    rewrite (self_param_cached _ _ _ _ _ Hp Hd).
    destruct (getitem d "TimerInterruptFreq") as [[freq| |]|];
      cbn [as_int rbind]; rewrite ?truediv_zero; eauto.
Qed.

(** X3.  The conversions read [self.params] and nothing else: with the
    attribute unset they raise [AttributeError], with the axis or the
    parameter missing [KeyError], with a cached value that is not an integer
    [TypeError]; the instance is left as it was. *)
Theorem conversions_need_parameters self axis (x : Qc) :
  (self_params self = None →
   degrees2counts axis x self = (Raise AttributeError, self) ∧
   counts2degrees axis x self = (Raise AttributeError, self) ∧
   T1preset axis x self = (Raise AttributeError, self)) ∧
  (∀ p, self_params self = Some p → p !! axis = None →
   degrees2counts axis x self = (Raise KeyError, self) ∧
   counts2degrees axis x self = (Raise KeyError, self) ∧
   T1preset axis x self = (Raise KeyError, self)) ∧
  (∀ p d, self_params self = Some p → p !! axis = Some d →
   d !! "countsPerRevolution" = None →
   degrees2counts axis x self = (Raise KeyError, self) ∧
   counts2degrees axis x self = (Raise KeyError, self) ∧
   T1preset axis x self = (Raise KeyError, self)) ∧
  (∀ p d v, self_params self = Some p → p !! axis = Some d →
   d !! "countsPerRevolution" = Some v → (∀ z, v ≠ VInt z) →
   degrees2counts axis x self = (Raise TypeError, self) ∧
   counts2degrees axis x self = (Raise TypeError, self) ∧
   T1preset axis x self = (Raise TypeError, self)).
Proof.
  unfold T1preset, degrees2counts, counts2degrees, bind, lift, ret,
    self_param, getitem.
  split; [|split; [|split]].
  - intros ->. repeat split.
  - intros p -> ->. repeat split.
  - intros p d -> ->. cbn [rbind]. intros ->. repeat split.
  - intros p d v -> ->. cbn [rbind]. intros -> Hv.
    destruct v as [z| |]; [destruct (Hv z); reflexivity|..]; repeat split.
Qed.


Lemma counts_per_second_nonzero (cpr : Z) (degreesPerSecond : Qc) :
  cpr ≠ 0 → degreesPerSecond ≠ 0%Qc →
  (degreesPerSecond * Qc_of_Z cpr / Qc_of_Z 360)%Qc ≠ 0%Qc.
Proof.
  intros Hnz Hdps H.
  pose proof (Qc_of_Z_nonzero 360 ltac:(lia)) as H360.
  pose proof (Qc_of_Z_nonzero cpr Hnz) as Hcpr.
  apply (f_equal (λ x, x * Qc_of_Z 360 / Qc_of_Z cpr)%Qc) in H.
  apply Hdps.
  transitivity (degreesPerSecond * Qc_of_Z cpr / Qc_of_Z 360
                * Qc_of_Z 360 / Qc_of_Z cpr)%Qc;
    [field; split; assumption|].
  rewrite H. field. assumption.
Qed.

Lemma T1preset_cached self p d axis cpr freq degreesPerSecond :
  self_params self = Some p → p !! axis = Some d →
  d !! "countsPerRevolution" = Some (VInt cpr) → cpr ≠ 0 →
  d !! "TimerInterruptFreq" = Some (VInt freq) →
  degreesPerSecond ≠ 0%Qc →
  T1preset axis degreesPerSecond self =
  (Ok (Qc_of_Z freq / (degreesPerSecond * Qc_of_Z cpr / Qc_of_Z 360))%Qc,
   self).
Proof.
  intros Hp Hd Hc Hnz Hf Hdps.
  unfold T1preset, bind, lift, ret.
  erewrite degrees2counts_cached by eassumption.
  rewrite (self_param_cached _ _ _ _ _ Hp Hd). unfold getitem. rewrite Hf.
  cbn [as_int rbind].
  rewrite truediv_nonzero by (apply counts_per_second_nonzero; assumption).
  reflexivity.
Qed.


End MoreConversions.

(** ** The facade: fetches, initialisation and single commands *)

Section MoreFacade.

Context {World : Type}.
Variable send_cmd :
  string → Z → option Z → option Z → World → result pyval * World.

Implicit Types (self : instance World) (w : World).

(** X6.  [set_speed] at speed 0 raises [ZeroDivisionError] before anything
    is sent: the instance and its transport are as they were, whatever the
    transport is. *)
Theorem set_speed_zero self p d axis cpr freq :
  self_params self = Some p → p !! axis = Some d →
  d !! "countsPerRevolution" = Some (VInt cpr) →
  d !! "TimerInterruptFreq" = Some (VInt freq) →
  set_speed send_cmd axis 0%Qc self = (Raise ZeroDivisionError, self).
Proof.
  intros Hp Hd Hc Hf. unfold set_speed, T1preset, bind, lift, ret.
  erewrite degrees2counts_cached by eassumption.
  rewrite (self_param_cached _ _ _ _ _ Hp Hd). unfold getitem. rewrite Hf.
  cbn [as_int rbind].
  replace (0 * Qc_of_Z cpr / Qc_of_Z 360)%Qc with (Q2Qc 0).
  - rewrite truediv_zero. reflexivity.
  - change (Q2Qc 0) with 0%Qc. symmetry. field.
    intros H. apply Qc_of_Z_zero in H. discriminate H.
Qed.

(** [set_speed] once the preset is known: one call of the transport. *)
Lemma set_speed_call self axis degreesPerSecond preset :
  T1preset axis degreesPerSecond self = (Ok preset, self) →
  set_speed send_cmd axis degreesPerSecond self =
  match send_cmd "I" axis (Some (py_int preset)) None (transport self) with
  | (Ok _, w) => (Ok (), moved self w)
  | (Raise e, w) => (Raise e, moved self w)
  end.
Proof.
  intros Hpreset. unfold set_speed, bind. rewrite Hpreset.
  unfold set_step_period, call, ret.
  destruct (send_cmd "I" axis _ None (transport self)) as [[v|e] w];
    reflexivity.
Qed.


(** X8.  For any [parameterDict], a dictionary returned by [get_values]
    holds the answers of all the requests: both axes, and under each axis
    exactly the keys of [parameterDict].  With an empty [parameterDict] it is
    [{1: {}, 2: {}}] and the transport is not called. *)
Theorem get_values_complete (items : list (string * string)) self :
  (∀ (p : pdict) self',
     get_values send_cmd items self = (Ok p, self') →
     complete (list_to_set items.*1) p ∧
     ∃ vals,
       serve send_cmd (requests items) (transport self) =
         Answered vals (transport self') ∧
       p = assemble items vals) ∧
  get_values send_cmd [] self = (Ok (<[2 := ∅]> (<[1 := ∅]> ∅)), self).
Proof.
  split; [|reflexivity].
  intros p self'. rewrite get_values_serve.
  destruct (serve send_cmd _ (transport self)) as [vals w|e w] eqn:Hs.
  - intros [= <- <-]. split.
    + apply (assemble_complete send_cmd). apply serve_length in Hs.
      rewrite Hs. unfold requests. simpl.
      rewrite !length_app, !length_map. simpl. lia.
    + exists vals. split; reflexivity.
  - destruct e; discriminate.
Qed.

(** X9.  [get_values] stops at the first call that raises: the transport is
    left where that call left it, the communication error becomes
    [NameError('getValuesError')] whatever its message was, and any other
    exception is raised unchanged. *)
Theorem get_values_failure (items : list (string * string)) self e w :
  serve send_cmd (requests items) (transport self) = Failed e w →
  get_values send_cmd items self =
  (Raise match e with
         | NameError _ => NameError "getValuesError"
         | _ => e
         end,
   moved self w).
Proof.
  intros Hs. rewrite get_values_serve, Hs. destruct e; reflexivity.
Qed.

(** [get_parameters] against the transport. *)
Lemma get_parameters_serve self :
  get_parameters send_cmd self =
  match serve send_cmd (requests parameters_dict) (transport self) with
  | Answered vals w =>
      (Ok (assemble parameters_dict vals),
       Instance w (self_params self) (Some (assemble parameters_dict vals)))
  | Failed (NameError _) w =>
      (Raise (NameError "getParametersError"), moved self w)
  | Failed e w => (Raise e, moved self w)
  end.
Proof.
  unfold get_parameters, try_except. rewrite get_values_serve.
  destruct (serve send_cmd _ (transport self)) as [vals w|e w];
    [reflexivity | destruct e; reflexivity].
Qed.

Lemma init_S (fuel : nat) self :
  init send_cmd (S fuel) self =
  match get_parameters send_cmd self with
  | (Ok params, self') => Some (set_params params self')
  | (Raise (NameError error), self') => init send_cmd fuel self'
  | (Raise e, self') => Some (Raise e, self')
  end.
Proof. reflexivity. Qed.

Lemma fails_then_answers_eq (k : nat) w :
  fails_then_answers send_cmd k w =
  match serve send_cmd (requests parameters_dict) w with
  | Answered _ _ => match k with O => true | S _ => false end
  | Failed (NameError _) w' =>
      match k with
      | O => false
      | S k' => fails_then_answers send_cmd k' w'
      end
  | Failed _ _ => false
  end.
Proof. destruct k; reflexivity. Qed.



(** X12.  An exception of the transport that is not its communication
    error leaves [init] at once: it is raised unchanged and [self.params]
    stays as it was. *)
Theorem init_foreign_exception (fuel : nat) self e w :
  serve send_cmd (requests parameters_dict) (transport self) = Failed e w →
  (∀ msg, e ≠ NameError msg) →
  init send_cmd (S fuel) self = Some (Raise e, moved self w).
Proof.
  intros Hs Hne. rewrite init_S, get_parameters_serve, Hs.
  destruct e; try reflexivity. destruct (Hne msg). reflexivity.
Qed.

(** [get_current_values] on eight well-typed answers. *)
Lemma get_current_values_decoded self g1 p1 s1 f1 g2 p2 s2 f2 st1 st2 w :
  serve send_cmd (requests current_dict) (transport self) =
    Answered [VInt g1; VInt p1; s1; VStr f1; VInt g2; VInt p2; s2; VStr f2] w →
  decode_status f1 = Ok st1 → decode_status f2 = Ok st2 →
  get_current_values send_cmd self =
  (Ok (assemble current_dict
         [VInt (g1 - 0x800000); VInt (p1 - 0x800000); s1; VDict st1;
          VInt (g2 - 0x800000); VInt (p2 - 0x800000); s2; VDict st2]),
   moved self w).
Proof.
  intros Hs H1 H2.
  rewrite get_current_values_serve, Hs, correct_and_decode_assemble.
  simpl. rewrite H1, H2. reflexivity.
Qed.

(** X13.  When the transport answers the eight requests with integers for
    the targets and positions and with strings for the statuses, and both
    strings decode, [get_current_values] returns the corrected positions,
    the step periods as answered and the decoded statuses. *)
Theorem get_current_values_answered self g1 p1 s1 f1 g2 p2 s2 f2 st1 st2 w :
  serve send_cmd (requests current_dict) (transport self) =
    Answered [VInt g1; VInt p1; s1; VStr f1; VInt g2; VInt p2; s2; VStr f2] w →
  decode_status f1 = Ok st1 → decode_status f2 = Ok st2 →
  get_current_values send_cmd self =
  (Ok (assemble current_dict
         [VInt (g1 - 0x800000); VInt (p1 - 0x800000); s1; VDict st1;
          VInt (g2 - 0x800000); VInt (p2 - 0x800000); s2; VDict st2]),
   moved self w).
Proof. apply get_current_values_decoded. Qed.

(** X14.  Only the communication error is absorbed: any other exception of
    the transport leaves [get_current_values] unchanged. *)
Theorem get_current_values_foreign_exception self e w :
  serve send_cmd (requests current_dict) (transport self) = Failed e w →
  (∀ msg, e ≠ NameError msg) →
  get_current_values send_cmd self = (Raise e, moved self w).
Proof.
  intros Hs Hne. rewrite get_current_values_serve, Hs.
  destruct e; try reflexivity. destruct (Hne msg). reflexivity.
Qed.

(** X15.  Answers of the wrong type are not absorbed either: a target or a
    position answered as a string, or a status answered as an integer,
    makes [get_current_values] raise [TypeError]. *)
Theorem get_current_values_type_errors self v1 v2 v3 v4 v5 v6 v7 v8 w :
  serve send_cmd (requests current_dict) (transport self) =
    Answered [v1; v2; v3; v4; v5; v6; v7; v8] w →
  (∃ s, v1 = VStr s ∨ v2 = VStr s ∨ v5 = VStr s ∨ v6 = VStr s) ∨
  ((∃ g1 p1 g2 p2, v1 = VInt g1 ∧ v2 = VInt p1 ∧ v5 = VInt g2 ∧ v6 = VInt p2) ∧
   ∃ z, v4 = VInt z) →
  get_current_values send_cmd self = (Raise TypeError, moved self w).
Proof.
  intros Hs Hbad.
  rewrite get_current_values_serve, Hs, correct_and_decode_assemble.
  f_equal.
  destruct Hbad as [[s Hstr]|[Hints [z ->]]].
  - destruct v1; try reflexivity; destruct v5; try reflexivity;
      destruct v2; try reflexivity; destruct v6; try reflexivity;
      exfalso; intuition discriminate.
  - destruct Hints as (g1 & p1 & g2 & p2 & -> & -> & -> & ->). reflexivity.
Qed.

(** A status string that is too short or not hexadecimal makes the decoder
    raise. *)
Lemma decode_status_raises (s : string) :
  rejected s = true →
  decode_status s = Raise ValueError ∨ decode_status s = Raise IndexError.
Proof.
  unfold rejected.
  destruct s as [|a [|b [|c s]]].
  - right. reflexivity.
  - intros _. unfold decode_status, index. simpl. int16_case a.
  - intros _. unfold decode_status, index. simpl.
    int16_case a. int16_case b.
  - rewrite all_hex_prefix3. simpl String.length.
    replace (S (S (S (String.length s))) <? 3)%nat with false
      by (symmetry; apply Nat.ltb_ge; lia).
    rewrite orb_false_r.
    unfold decode_status, index, is_hex.
    cbn [String.get rbind].
    int16_case a. int16_case b. int16_case c. discriminate.
Qed.

(** X16.  A status string the decoder rejects is not absorbed: with integer
    targets and positions, a first status that is too short or not
    hexadecimal makes [get_current_values] raise [ValueError] or
    [IndexError]. *)
Theorem get_current_values_bad_status self g1 p1 s1 f1 g2 p2 s2 v8 w :
  serve send_cmd (requests current_dict) (transport self) =
    Answered [VInt g1; VInt p1; s1; VStr f1; VInt g2; VInt p2; s2; v8] w →
  rejected f1 = true →
  get_current_values send_cmd self = (Raise ValueError, moved self w) ∨
  get_current_values send_cmd self = (Raise IndexError, moved self w).
Proof.
  intros Hs Hrej.
  rewrite get_current_values_serve, Hs, correct_and_decode_assemble.
  simpl. destruct (decode_status_raises f1 Hrej) as [-> | ->]; auto.
Qed.

(** X17.  [get_axis_pos] makes one call and absorbs nothing: an exception
    of the transport, the communication error included, is raised
    unchanged, and an answer that is not an integer raises [TypeError]. *)
Theorem get_axis_pos_errors self axis :
  (∀ e w, send_cmd "j" axis None None (transport self) = (Raise e, w) →
     get_axis_pos send_cmd axis self = (Raise e, moved self w)) ∧
  (∀ v w, send_cmd "j" axis None None (transport self) = (Ok v, w) →
     (∀ z, v ≠ VInt z) →
     get_axis_pos send_cmd axis self = (Raise TypeError, moved self w)).
Proof.
  unfold get_axis_pos, bind, call, lift, ret. split.
  - intros e w ->. reflexivity.
  - intros v w -> Hv. destruct v as [z| |]; [destruct (Hv z)|..]; reflexivity.
Qed.

End MoreFacade.

(** ** The status word and the mode byte: what they carry *)

(** The decoded status in terms of the bits it reads. *)
Lemma decode_digits_testbit (A B C : Z) :
  decode_digits A B C =
  <["LevelSwitchOn" := Z.testbit B 1]>
    (<["InitDone" := negb (Z.testbit C 0)]>
       (<["Blocked" := Z.testbit B 1]>
          (<["Stopped" := negb (Z.testbit B 0)]>
             (<["FastSpeed" := Z.testbit A 2]>
                (<["CCW" := Z.testbit A 1]>
                   (<["Tracking" := Z.testbit A 0]> ∅)))))).
Proof.
  pose proof (py_bool_bit A 1) as HA1. pose proof (py_bool_bit A 2) as HA2.
  pose proof (py_bool_bit B 1) as HB1.
  change (2 ^ 1) with 2 in *. change (2 ^ 2) with 4 in *.
  unfold decode_digits. cbv zeta.
  rewrite HA1, HA2, HB1, !land_1, py_bool_b2z, !py_not_b2z by lia.
  reflexivity.
Qed.

Lemma Ok_inj {A} (x y : A) : Ok x = Ok y → x = y.
Proof.
  intros H.
  exact (f_equal (λ r, match r with Ok a => a | Raise _ => x end) H).
Qed.

(** X18.  Two status words of three hex digits decode to the same status
    exactly when they agree on bits 0-2 of the first digit, bits 0-1 of the
    second and bit 0 of the third: the rest of the word, the documented
    level-switch bit of the third digit included, is never read. *)
Theorem decode_status_reads (a b c a' b' c' : ascii) (A B C A' B' C' : Z) :
  int16 a = Ok A → int16 b = Ok B → int16 c = Ok C →
  int16 a' = Ok A' → int16 b' = Ok B' → int16 c' = Ok C' →
  decode_status (String a (String b (String c EmptyString))) =
  decode_status (String a' (String b' (String c' EmptyString))) ↔
  (Z.testbit A 0 = Z.testbit A' 0 ∧ Z.testbit A 1 = Z.testbit A' 1 ∧
   Z.testbit A 2 = Z.testbit A' 2 ∧
   Z.testbit B 0 = Z.testbit B' 0 ∧ Z.testbit B 1 = Z.testbit B' 1 ∧
   Z.testbit C 0 = Z.testbit C' 0).
Proof.
  intros Ha Hb Hc Ha' Hb' Hc'.
  unfold decode_status, index. cbn [String.get rbind].
  rewrite Ha, Ha'. cbn [rbind]. rewrite Hb, Hb'. cbn [rbind].
  rewrite Hc, Hc'. cbn [rbind].
  split.
  - intros Heq. apply Ok_inj in Heq. rewrite !decode_digits_testbit in Heq.
    assert (Some (Z.testbit A 0) = Some (Z.testbit A' 0)) as E0
      by exact (f_equal (λ m : status, m !! "Tracking") Heq).
    assert (Some (Z.testbit A 1) = Some (Z.testbit A' 1)) as E1
      by exact (f_equal (λ m : status, m !! "CCW") Heq).
    assert (Some (Z.testbit A 2) = Some (Z.testbit A' 2)) as E2
      by exact (f_equal (λ m : status, m !! "FastSpeed") Heq).
    assert (Some (negb (Z.testbit B 0)) = Some (negb (Z.testbit B' 0))) as E3
      by exact (f_equal (λ m : status, m !! "Stopped") Heq).
    assert (Some (Z.testbit B 1) = Some (Z.testbit B' 1)) as E4
      by exact (f_equal (λ m : status, m !! "Blocked") Heq).
    assert (Some (negb (Z.testbit C 0)) = Some (negb (Z.testbit C' 0))) as E5
      by exact (f_equal (λ m : status, m !! "InitDone") Heq).
    repeat split; try congruence;
      [destruct (Z.testbit B 0), (Z.testbit B' 0)
      |destruct (Z.testbit C 0), (Z.testbit C' 0)];
      (reflexivity || discriminate).
  - intros (H0 & H1 & H2 & H3 & H4 & H5).
    rewrite !decode_digits_testbit, H0, H1, H2, H3, H4, H5. reflexivity.
Qed.

Lemma decode_status_reads_witness :
  decode_status "a5e" = decode_status "2dc".
Proof.
  apply (decode_status_reads "a" "5" "e" "2" "d" "c" 10 5 14 2 13 12);
    try reflexivity.
  repeat split.
Defined.

(** X19.  The mode byte determines the three flags: two calls of
    [set_motion_mode] that send the same byte were given the same tracking,
    speed and direction. *)
Theorem motion_mode_injective (t f c t' f' c' : bool) :
  motion_mode t f c = motion_mode t' f' c' → t = t' ∧ f = f' ∧ c = c'.
Proof.
  destruct t, f, c, t', f', c'; intros H;
    first [discriminate H | repeat split].
Qed.

Lemma motion_mode_injective_witness :
  true = true ∧ false = false ∧ true = true.
Proof.
  apply (motion_mode_injective true false true true false true). reflexivity.
Defined.

(** ** test_goto *)

Section TestGoto.

Context {World : Type}.
Variable send_cmd :
  string → Z → option Z → option Z → World → result pyval * World.

Implicit Types (self : instance World) (w : World).

Lemma call_answers (cmd : string) (axis : Z) (data ndigits : option Z)
    self (r : pyval) w :
  send_cmd cmd axis data ndigits (transport self) = (Ok r, w) →
  call send_cmd cmd axis data ndigits self = (Ok r, moved self w).
Proof. intros H. unfold call. rewrite H. reflexivity. Qed.

(** [poll] when the fetch fails: the empty dictionary has no axis. *)
Lemma poll_failure (axis : Z) self :
  transport_fails send_cmd (requests current_dict) (transport self) = true →
  ∃ w, poll send_cmd axis self = (Raise KeyError, moved self w).
Proof.
  unfold transport_fails, poll, bind, lift.
  rewrite get_current_values_serve.
  destruct (serve send_cmd _ (transport self)) as [vals w|e w];
    [discriminate|].
  destruct e; try discriminate. intros _. exists w. reflexivity.
Qed.

(** The commands of [test_goto] before the first poll, all answered. *)
Lemma start_goto_commands self (axis : Z) (X : Qc) p d cpr freq
    (r1 r2 r3 r4 r5 : pyval) w1 w2 w3 w4 w5 :
  self_params self = Some p → p !! axis = Some d →
  d !! "countsPerRevolution" = Some (VInt cpr) → cpr ≠ 0 →
  d !! "TimerInterruptFreq" = Some (VInt freq) →
  send_cmd "K" axis None None (transport self) = (Ok r1, w1) →
  send_cmd "G" axis (Some 0) (Some 2) w1 = (Ok r2, w2) →
  (∀ data, send_cmd "I" axis (Some data) None w2 = (Ok r3, w3)) →
  (∀ data, send_cmd "S" axis (Some data) None w3 = (Ok r4, w4)) →
  send_cmd "J" axis None None w4 = (Ok r5, w5) →
  start_goto send_cmd axis X self = poll send_cmd axis (moved self w5).
Proof.
  intros Hp Hd Hc Hnz Hf HK HG HI HS HJ.
  unfold start_goto, stop_motion, set_motion_mode, set_goto_target,
    start_motion.
  unfold bind at 1. rewrite (call_answers _ _ _ _ _ _ _ HK).
  unfold bind at 1. change (motion_mode false false false) with 0.
  rewrite (call_answers "G" axis (Some 0) (Some 2) (moved self w1) r2 w2 HG).
  rewrite moved_moved. unfold bind at 1.
  assert (T1preset axis (Qc_of_Z 5) (moved self w2) =
          (Ok (Qc_of_Z freq / (Qc_of_Z 5 * Qc_of_Z cpr / Qc_of_Z 360))%Qc,
           moved self w2)) as Hpreset.
  { eapply T1preset_cached; try eassumption.
    apply Qc_of_Z_nonzero. lia. }
  rewrite (set_speed_call send_cmd _ _ _ _ Hpreset).
  change (transport (moved self w2)) with w2. rewrite HI, moved_moved.
  unfold bind at 1.
  rewrite (degrees2counts_cached (moved self w3) p d axis cpr X Hp Hd Hc).
  unfold bind at 1.
  rewrite (call_answers "S" axis _ None (moved self w3) r4 w4 (HS _)).
  rewrite moved_moved. unfold bind at 1.
  rewrite (call_answers "J" axis None None (moved self w4) r5 w5 HJ).
  rewrite moved_moved. reflexivity.
Qed.

(** X20.  When the commands of [test_goto] are answered and the first poll
    meets a communication failure, [test_goto] ends with [KeyError]: the
    empty result of [get_current_values] is indexed by the axis. *)
Theorem test_goto_poll_failure (fuel : nat) self (axis : Z) (X : Qc) p d
    cpr freq (r1 r2 r3 r4 r5 : pyval) w1 w2 w3 w4 w5 :
  self_params self = Some p → p !! axis = Some d →
  d !! "countsPerRevolution" = Some (VInt cpr) → cpr ≠ 0 →
  d !! "TimerInterruptFreq" = Some (VInt freq) →
  send_cmd "K" axis None None (transport self) = (Ok r1, w1) →
  send_cmd "G" axis (Some 0) (Some 2) w1 = (Ok r2, w2) →
  (∀ data, send_cmd "I" axis (Some data) None w2 = (Ok r3, w3)) →
  (∀ data, send_cmd "S" axis (Some data) None w3 = (Ok r4, w4)) →
  send_cmd "J" axis None None w4 = (Ok r5, w5) →
  transport_fails send_cmd (requests current_dict) w5 = true →
  ∃ w, test_goto send_cmd fuel axis X self = Some (Raise KeyError, moved self w).
Proof.
  intros Hp Hd Hc Hnz Hf HK HG HI HS HJ Hfail.
  unfold test_goto.
  rewrite (start_goto_commands self axis X p d cpr freq r1 r2 r3 r4 r5
             w1 w2 w3 w4 w5) by assumption.
  destruct (poll_failure axis (moved self w5) Hfail) as [w ->].
  exists w. reflexivity.
Qed.

Lemma wait_stopped_done (fuel : nat) (axis : Z)
    (params : gmap string pyval) self :
  status_stopped params = Ok true →
  wait_stopped send_cmd fuel axis params self = Some (Ok (), self).
Proof. intros H. destruct fuel; simpl; rewrite H; reflexivity. Qed.

(** X21.  When the commands are answered and the first poll shows the axis
    stopped, [test_goto] returns without polling again. *)
Theorem test_goto_already_stopped (fuel : nat) self (axis : Z) (X : Qc) p d
    cpr freq (r1 r2 r3 r4 r5 : pyval) w1 w2 w3 w4 w5
    g1 p1 s1 f1 g2 p2 s2 f2 (st1 st2 : status) w6 :
  self_params self = Some p → p !! axis = Some d →
  d !! "countsPerRevolution" = Some (VInt cpr) → cpr ≠ 0 →
  d !! "TimerInterruptFreq" = Some (VInt freq) →
  send_cmd "K" axis None None (transport self) = (Ok r1, w1) →
  send_cmd "G" axis (Some 0) (Some 2) w1 = (Ok r2, w2) →
  (∀ data, send_cmd "I" axis (Some data) None w2 = (Ok r3, w3)) →
  (∀ data, send_cmd "S" axis (Some data) None w3 = (Ok r4, w4)) →
  send_cmd "J" axis None None w4 = (Ok r5, w5) →
  serve send_cmd (requests current_dict) w5 =
    Answered [VInt g1; VInt p1; s1; VStr f1; VInt g2; VInt p2; s2; VStr f2] w6 →
  decode_status f1 = Ok st1 → decode_status f2 = Ok st2 →
  (axis = 1 ∧ st1 !! "Stopped" = Some true) ∨
  (axis = 2 ∧ st2 !! "Stopped" = Some true) →
  test_goto send_cmd fuel axis X self = Some (Ok (), moved self w6).
Proof.
  intros Hp Hd Hc Hnz Hf HK HG HI HS HJ Hs H1 H2 Hstopped.
  unfold test_goto.
  rewrite (start_goto_commands self axis X p d cpr freq r1 r2 r3 r4 r5
             w1 w2 w3 w4 w5) by assumption.
  unfold poll, bind, lift.
  rewrite (get_current_values_decoded send_cmd (moved self w5)
             g1 p1 s1 f1 g2 p2 s2 f2 st1 st2 w6 Hs H1 H2).
  destruct Hstopped as [[-> Hst]|[-> Hst]].
  - change (getitem (assemble current_dict _) 1)
      with (Ok (fill ∅ [("GotoTarget", VInt (g1 - 0x800000));
                        ("Position", VInt (p1 - 0x800000));
                        ("StepPeriod", s1); ("Status", VDict st1)])).
    cbv iota beta.
    assert (status_stopped
              (fill ∅ [("GotoTarget", VInt (g1 - 0x800000));
                       ("Position", VInt (p1 - 0x800000));
                       ("StepPeriod", s1); ("Status", VDict st1)]) = Ok true)
      as Hstop.
    { change (getitem st1 "Stopped" = Ok true). unfold getitem.
      rewrite Hst. reflexivity. }
    apply wait_stopped_done. exact Hstop.
  - change (getitem (assemble current_dict _) 2)
      with (Ok (fill ∅ [("GotoTarget", VInt (g2 - 0x800000));
                        ("Position", VInt (p2 - 0x800000));
                        ("StepPeriod", s2); ("Status", VDict st2)])).
    cbv iota beta.
    assert (status_stopped
              (fill ∅ [("GotoTarget", VInt (g2 - 0x800000));
                       ("Position", VInt (p2 - 0x800000));
                       ("StepPeriod", s2); ("Status", VDict st2)]) = Ok true)
      as Hstop.
    { change (getitem st2 "Stopped" = Ok true). unfold getitem.
      rewrite Hst. reflexivity. }
    apply wait_stopped_done. exact Hstop.
Qed.

(** X22.  While waiting, a poll that meets a communication failure ends
    the loop with [KeyError]. *)
Theorem wait_stopped_poll_failure (fuel : nat) (axis : Z)
    (params : gmap string pyval) self :
  status_stopped params = Ok false →
  transport_fails send_cmd (requests current_dict) (transport self) = true →
  ∃ w,
    wait_stopped send_cmd (S fuel) axis params self =
    Some (Raise KeyError, moved self w).
Proof.
  intros Hrun Hfail. simpl. rewrite Hrun.
  destruct (poll_failure axis self Hfail) as [w ->].
  exists w. reflexivity.
Qed.

End TestGoto.

(** ** The further properties at a scripted transport *)


Lemma zero_countsPerRevolution_witness :
  counts2degrees 2 (Qc_of_Z 100) (Scripted.cached (Scripted.mount 0 64935)) =
  (Raise ZeroDivisionError, Scripted.cached (Scripted.mount 0 64935)).
Proof.
  eapply (zero_countsPerRevolution (Scripted.cached (Scripted.mount 0 64935))
            (Scripted.mount 0 64935) _ 2);
    reflexivity.
Defined.

Lemma conversions_need_parameters_witness :
  degrees2counts 1 (Qc_of_Z 90) (Scripted.fresh []) =
  (Raise AttributeError, Scripted.fresh []).
Proof.
  apply (conversions_need_parameters (Scripted.fresh []) 1 (Qc_of_Z 90)).
  reflexivity.
Defined.



Lemma set_speed_zero_witness :
  set_speed Scripted.send_cmd 1 0%Qc
    (Scripted.cached (Scripted.mount 9024000 64935)) =
  (Raise ZeroDivisionError, Scripted.cached (Scripted.mount 9024000 64935)).
Proof.
  eapply (set_speed_zero Scripted.send_cmd
            (Scripted.cached (Scripted.mount 9024000 64935))
            (Scripted.mount 9024000 64935) _ 1 9024000 64935);
    reflexivity.
Defined.


Lemma get_values_failure_witness :
  get_values Scripted.send_cmd current_dict
    (Scripted.fresh [Ok (VInt 1); Raise (NameError "SynScanTimeoutError");
                     Ok (VInt 3)]) =
  (Raise (NameError "getValuesError"), Scripted.fresh [Ok (VInt 3)]).
Proof.
  apply (get_values_failure Scripted.send_cmd current_dict
           (Scripted.fresh [Ok (VInt 1);
                            Raise (NameError "SynScanTimeoutError");
                            Ok (VInt 3)])
           (NameError "SynScanTimeoutError") [Ok (VInt 3)]).
  reflexivity.
Defined.



Lemma init_foreign_exception_witness :
  init Scripted.send_cmd 1 (Scripted.fresh [Ok (VInt 1); Raise TypeError]) =
  Some (Raise TypeError, Scripted.fresh []).
Proof.
  apply (init_foreign_exception Scripted.send_cmd 0
           (Scripted.fresh [Ok (VInt 1); Raise TypeError]) TypeError []).
  - reflexivity.
  - discriminate.
Defined.

Lemma get_current_values_answered_witness :
  get_current_values Scripted.send_cmd (Scripted.fresh Scripted.poll_script) =
  (Ok Scripted.poll_result, Scripted.fresh []).
Proof.
  apply (get_current_values_answered Scripted.send_cmd
           (Scripted.fresh Scripted.poll_script)
           0x800064 0x7FFFFF (VInt 0x10) "101" 0x800000 0x800001 (VInt 0x20)
           "310" (decode_digits 1 0 1) (decode_digits 3 1 0) []);
    reflexivity.
Defined.

Lemma get_current_values_foreign_exception_witness :
  get_current_values Scripted.send_cmd
    (Scripted.fresh [Ok (VInt 1); Raise ValueError]) =
  (Raise ValueError, Scripted.fresh []).
Proof.
  apply (get_current_values_foreign_exception Scripted.send_cmd
           (Scripted.fresh [Ok (VInt 1); Raise ValueError]) ValueError []).
  - reflexivity.
  - discriminate.
Defined.

Lemma get_current_values_type_errors_witness :
  get_current_values Scripted.send_cmd
    (Scripted.fresh
       [Ok (VInt 1); Ok (VInt 2); Ok (VInt 3); Ok (VInt 0x101);
        Ok (VInt 5); Ok (VInt 6); Ok (VInt 7); Ok (VInt 0x310)]) =
  (Raise TypeError, Scripted.fresh []).
Proof.
  apply (get_current_values_type_errors Scripted.send_cmd
           (Scripted.fresh
              [Ok (VInt 1); Ok (VInt 2); Ok (VInt 3); Ok (VInt 0x101);
               Ok (VInt 5); Ok (VInt 6); Ok (VInt 7); Ok (VInt 0x310)])
           (VInt 1) (VInt 2) (VInt 3) (VInt 0x101)
           (VInt 5) (VInt 6) (VInt 7) (VInt 0x310) []).
  - reflexivity.
  - right. split; [exists 1, 2, 5, 6; repeat split | exists 0x101; reflexivity].
Defined.

Lemma get_current_values_bad_status_witness :
  get_current_values Scripted.send_cmd
    (Scripted.fresh
       [Ok (VInt 1); Ok (VInt 2); Ok (VInt 3); Ok (VStr "1");
        Ok (VInt 5); Ok (VInt 6); Ok (VInt 7); Ok (VStr "310")]) =
  (Raise ValueError, Scripted.fresh []) ∨
  get_current_values Scripted.send_cmd
    (Scripted.fresh
       [Ok (VInt 1); Ok (VInt 2); Ok (VInt 3); Ok (VStr "1");
        Ok (VInt 5); Ok (VInt 6); Ok (VInt 7); Ok (VStr "310")]) =
  (Raise IndexError, Scripted.fresh []).
Proof.
  apply (get_current_values_bad_status Scripted.send_cmd
           (Scripted.fresh
              [Ok (VInt 1); Ok (VInt 2); Ok (VInt 3); Ok (VStr "1");
               Ok (VInt 5); Ok (VInt 6); Ok (VInt 7); Ok (VStr "310")])
           1 2 (VInt 3) "1" 5 6 (VInt 7) (VStr "310") []);
    reflexivity.
Defined.

Lemma get_axis_pos_errors_witness :
  get_axis_pos Scripted.send_cmd 1 (Scripted.fresh [Ok (VStr "800000")]) =
  (Raise TypeError, Scripted.fresh []).
Proof.
  apply (proj2 (get_axis_pos_errors Scripted.send_cmd
                  (Scripted.fresh [Ok (VStr "800000")]) 1)
           (VStr "800000") []).
  - reflexivity.
  - discriminate.
Defined.

Lemma test_goto_poll_failure_witness :
  ∃ w,
    test_goto Scripted.send_cmd 0 2 (Qc_of_Z 90)
      (Instance [Ok (VInt 0); Ok (VInt 0); Ok (VInt 0); Ok (VInt 0);
                 Ok (VInt 0); Raise (NameError "SynScanTimeoutError")]
         (Some (Scripted.mount 9024000 64935)) None) =
    Some (Raise KeyError,
          Instance w (Some (Scripted.mount 9024000 64935)) None).
Proof.
  eapply (test_goto_poll_failure Scripted.send_cmd 0
            (Instance [Ok (VInt 0); Ok (VInt 0); Ok (VInt 0); Ok (VInt 0);
                       Ok (VInt 0); Raise (NameError "SynScanTimeoutError")]
               (Some (Scripted.mount 9024000 64935)) None)
            2 (Qc_of_Z 90) (Scripted.mount 9024000 64935) _ 9024000 64935);
    [reflexivity | reflexivity | reflexivity | lia | reflexivity
    | reflexivity | reflexivity | intros; reflexivity | intros; reflexivity
    | reflexivity | reflexivity].
Defined.

Lemma test_goto_already_stopped_witness :
  test_goto Scripted.send_cmd 0 1 (Qc_of_Z 90)
    (Instance ([Ok (VInt 0); Ok (VInt 0); Ok (VInt 0); Ok (VInt 0);
                Ok (VInt 0)] ++ Scripted.poll_script)%list
       (Some (Scripted.mount 9024000 64935)) None) =
  Some (Ok (), Instance [] (Some (Scripted.mount 9024000 64935)) None).
Proof.
  eapply (test_goto_already_stopped Scripted.send_cmd 0
            (Instance ([Ok (VInt 0); Ok (VInt 0); Ok (VInt 0); Ok (VInt 0);
                        Ok (VInt 0)] ++ Scripted.poll_script)%list
               (Some (Scripted.mount 9024000 64935)) None)
            1 (Qc_of_Z 90) (Scripted.mount 9024000 64935) _ 9024000 64935);
    [reflexivity | reflexivity | reflexivity | lia | reflexivity
    | reflexivity | reflexivity | intros; reflexivity | intros; reflexivity
    | reflexivity | reflexivity | reflexivity | reflexivity
    | left; split; reflexivity].
Defined.

Lemma wait_stopped_poll_failure_witness :
  ∃ w,
    wait_stopped Scripted.send_cmd 1 1
      {[ "Status" := VDict (decode_digits 1 1 1) ]}
      (Scripted.fresh [Raise (NameError "SynScanTimeoutError")]) =
    Some (Raise KeyError,
          moved (Scripted.fresh [Raise (NameError "SynScanTimeoutError")]) w).
Proof.
  apply (wait_stopped_poll_failure Scripted.send_cmd 0 1
           {[ "Status" := VDict (decode_digits 1 1 1) ]}
           (Scripted.fresh [Raise (NameError "SynScanTimeoutError")]));
    reflexivity.
Defined.
